(** * Hall-encoder position loop: decoder, PID regulator, step-response tuner

    A shallow embedding of [encoder_reader.py], [pid_controller.py] and
    [pid_tuning_guide.py] (the geared DC motor position loop for
    MicroPython), with the properties of the decoder, the regulator and the
    step-response metrics stated and proved over it.

    Conventions of the embedding:
    - Python [int] is [Z]; Python [float] is idealised as an exact rational
      [Q] (no rounding, no infinities, no NaN);
    - a method that mutates [self] is a function from the old object to the
      new one; a method that can raise returns an [outcome];
    - the clock ([utime.ticks_ms]) and the two hall pins are inputs of the
      methods that read them. *)

From Stdlib Require Import ZArith QArith Qabs List Bool Lia Lqa.
Import ListNotations.

Local Open Scope Z_scope.

(** ** The Python and MicroPython run time the sources rely on *)

Module Py.

(** The only exception the modelled code can raise: a true division
    ([/]) whose divisor is zero. *)
Inductive exn : Type := ZeroDivisionError.

Inductive outcome (A : Type) : Type :=
| Return (a : A)
| Raise (e : exn).
Arguments Return {A} a.
Arguments Raise {A} e.

Definition bind {A B} (m : outcome A) (k : A -> outcome B) : outcome B :=
  match m with
  | Return a => k a
  | Raise e => Raise e
  end.

Definition lt (x y : Q) : bool := (Qnum x * QDen y <? Qnum y * QDen x)%Z.
Definition gt (x y : Q) : bool := lt y x.
Definition ge (x y : Q) : bool := Qle_bool y x.
Definition le (x y : Q) : bool := Qle_bool x y.

(** Truth value of a float: [0.0] is false, every other float is true. *)
Definition truthy (x : Q) : bool := negb (Qeq_bool x 0).

(** Truth value of an optional float: [None] and [0.0] are false. *)
Definition truthy_opt (x : option Q) : bool :=
  match x with
  | None => false
  | Some v => truthy v
  end.

(** [x / y]: raises [ZeroDivisionError] when [y] is zero. *)
Definition div (x y : Q) : outcome Q :=
  if Qeq_bool y 0 then Raise ZeroDivisionError else Return (x / y)%Q.

(** [int(x)]: truncation toward zero. *)
Definition int (x : Q) : Z := Z.quot (Qnum x) (QDen x).

(** [min(a, b)] and [max(a, b)] of two arguments: the first argument is
    kept unless the second is strictly smaller (strictly larger). *)
Definition min (a b : Q) : Q := if lt b a then b else a.
Definition max (a b : Q) : Q := if gt b a then b else a.

Definition abs (x : Q) : Q := Qabs x.

(** [sum(l)] over floats. *)
Definition sum (l : list Q) : Q := fold_left Qplus l 0%Q.

(** [max(l)] of a non-empty list: the first maximal element. *)
Definition max_list (x : Q) (l : list Q) : Q := fold_left max l x.

(** [len(l)] as a Python integer. *)
Definition len {A} (l : list A) : Z := Z.of_nat (length l).

(** [l[start:]]: a negative [start] counts from the end, and the bounds
    are clipped to the list. *)
Definition slice_from {A} (start : Z) (l : list A) : list A :=
  let n := len l in
  let s := if start <? 0 then Z.max (start + n) 0 else Z.min start n in
  skipn (Z.to_nat s) l.

(** [l[-1]], with a default for the empty list (the callers test for
    emptiness first). *)
Definition last_item {A} (l : list A) (d : A) : A := last l d.

(** [utime.ticks_diff(a, b)] of MicroPython: the signed difference of two
    tick values on a ring of [TICKS_PERIOD] ticks. *)
Definition TICKS_PERIOD : Z := 2 ^ 30.
Definition ticks_diff (a b : Z) : Z :=
  Z.land (a - b + TICKS_PERIOD / 2) (TICKS_PERIOD - 1) - TICKS_PERIOD / 2.

End Py.

Notation "x <- m ;; k" := (Py.bind m (fun x => k))
  (at level 61, m at next level, right associativity).

(** ** encoder_reader.py *)

Module Encoder.

(** The fields of [EncoderReader].  The two [Pin] objects are not part of
    the record: the levels they read are arguments of [_encoder_irq]. *)
Record EncoderReader : Type := mkEncoder {
  ppr : Z;
  gear_ratio : Z;
  total_ppr : Z;
  count : Z;
  last_count : Z;
  total_count : Z;
  overflow_count : Z;
  last_time : Z;
  speed : Q;
  angle_speed : Q;
  _last_a_state : bool;
  _last_b_state : bool
}.

(** [__init__]: [a0], [b0] are the pin levels and [now] the clock read
    during construction. *)
Definition init (a0 b0 : bool) (now : Z) (ppr gear_ratio : Z)
  : EncoderReader :=
  {| ppr := ppr;
     gear_ratio := gear_ratio;
     total_ppr := ppr * gear_ratio;
     count := 0;
     last_count := 0;
     total_count := 0;
     overflow_count := 0;
     last_time := now;
     speed := 0%Q;
     angle_speed := 0%Q;
     _last_a_state := a0;
     _last_b_state := b0 |}.

Definition set_count (self : EncoderReader) (c : Z) : EncoderReader :=
  {| ppr := ppr self; gear_ratio := gear_ratio self;
     total_ppr := total_ppr self;
     count := c;
     last_count := last_count self; total_count := total_count self;
     overflow_count := overflow_count self; last_time := last_time self;
     speed := speed self; angle_speed := angle_speed self;
     _last_a_state := _last_a_state self;
     _last_b_state := _last_b_state self |}.

(** [_encoder_irq]: [current_a], [current_b] are what [hall_a.value()]
    and [hall_b.value()] return inside the handler. *)
Definition _encoder_irq (self : EncoderReader) (current_a current_b : bool)
  : EncoderReader :=
  let self :=
    if negb (Bool.eqb current_a (_last_a_state self)) then
      if negb (Bool.eqb current_a current_b)
      then set_count self (count self + 1)
      else set_count self (count self - 1)
    else if negb (Bool.eqb current_b (_last_b_state self)) then
      if Bool.eqb current_b current_a
      then set_count self (count self + 1)
      else set_count self (count self - 1)
    else self in
  {| ppr := ppr self; gear_ratio := gear_ratio self;
     total_ppr := total_ppr self;
     count := count self;
     last_count := last_count self;
     total_count := total_count self + 1;
     overflow_count := overflow_count self; last_time := last_time self;
     speed := speed self; angle_speed := angle_speed self;
     _last_a_state := current_a;
     _last_b_state := current_b |}.

Definition get_count (self : EncoderReader) : Z := count self.

Definition reset (self : EncoderReader) : EncoderReader :=
  {| ppr := ppr self; gear_ratio := gear_ratio self;
     total_ppr := total_ppr self;
     count := 0;
     last_count := 0;
     total_count := 0;
     overflow_count := 0;
     last_time := last_time self;
     speed := 0%Q;
     angle_speed := 0%Q;
     _last_a_state := _last_a_state self;
     _last_b_state := _last_b_state self |}.

(** [get_angle]: [(self.count / self.total_ppr) * 360.0]. *)
Definition get_angle (self : EncoderReader) : Py.outcome Q :=
  r <- Py.div (inject_Z (count self)) (inject_Z (total_ppr self)) ;;
  Py.Return (r * 360)%Q.

Definition get_revolutions (self : EncoderReader) : Py.outcome Q :=
  Py.div (inject_Z (count self)) (inject_Z (total_ppr self)).

(** The two-bit phase of the hall lines as a number: channel A is bit 0
    and channel B is bit 1, so that 00, 01, 11, 10 is the order in which
    A leads B. *)
Definition phase_a (phase : Z) : bool := Z.testbit phase 0.
Definition phase_b (phase : Z) : bool := Z.testbit phase 1.

(** One edge event: the handler runs with the pins at [phase]. *)
Definition edge (self : EncoderReader) (phase : Z) : EncoderReader :=
  _encoder_irq self (phase_a phase) (phase_b phase).

(** A run of edge events, in the order the hardware reports them. *)
Definition edges (self : EncoderReader) (phases : list Z) : EncoderReader :=
  fold_left edge phases self.

(** The phase an encoder last saw. *)
Definition last_phase (self : EncoderReader) : Z :=
  Z.b2z (_last_a_state self) + 2 * Z.b2z (_last_b_state self).

(** The literal used for pi. *)
Definition PI : Q := 3.14159265359%Q.

(** [get_angular_position]: [(self.count / self.total_ppr) * 2 * 3.14159265359]. *)
Definition get_angular_position (self : EncoderReader) : Py.outcome Q :=
  r <- Py.div (inject_Z (count self)) (inject_Z (total_ppr self)) ;;
  Py.Return (r * 2 * PI)%Q.

Definition set_speed_fields (self : EncoderReader) (speed' angle_speed' : Q)
  : EncoderReader :=
  {| ppr := ppr self; gear_ratio := gear_ratio self;
     total_ppr := total_ppr self;
     count := count self;
     last_count := last_count self; total_count := total_count self;
     overflow_count := overflow_count self; last_time := last_time self;
     speed := speed'; angle_speed := angle_speed';
     _last_a_state := _last_a_state self;
     _last_b_state := _last_b_state self |}.

Definition set_baseline (self : EncoderReader) (last_count' last_time' : Z)
  : EncoderReader :=
  {| ppr := ppr self; gear_ratio := gear_ratio self;
     total_ppr := total_ppr self;
     count := count self;
     last_count := last_count'; total_count := total_count self;
     overflow_count := overflow_count self; last_time := last_time';
     speed := speed self; angle_speed := angle_speed self;
     _last_a_state := _last_a_state self;
     _last_b_state := _last_b_state self |}.

(** [update_speed]; [current_time] is the value of [utime.ticks_ms()].
    The object is returned with the outcome: an exception leaves it as it
    was when raised. *)
Definition update_speed (self : EncoderReader) (current_time : Z)
  : EncoderReader * Py.outcome unit :=
  let time_diff := Py.ticks_diff current_time (last_time self) in
  if 50 <=? time_diff then
    let count_diff := count self - last_count self in
    if 0 <? time_diff then
      match Py.div (inject_Z count_diff) (inject_Z (total_ppr self)) with
      | Py.Raise e => (self, Py.Raise e)
      | Py.Return r =>
          match Py.div (r * 60000)%Q (inject_Z time_diff) with
          | Py.Raise e => (self, Py.Raise e)
          | Py.Return speed' =>
              let self := set_speed_fields self speed' (speed' * 360 / 60)%Q in
              (set_baseline self (count self) current_time, Py.Return tt)
          end
      end
    else (set_baseline self (count self) current_time, Py.Return tt)
  else (self, Py.Return tt).

(** [get_speed_rpm] and [get_speed_deg_per_sec]: update, then read. *)
Definition get_speed_rpm (self : EncoderReader) (current_time : Z)
  : EncoderReader * Py.outcome Q :=
  match update_speed self current_time with
  | (self', Py.Return _) => (self', Py.Return (speed self'))
  | (self', Py.Raise e) => (self', Py.Raise e)
  end.

Definition get_speed_deg_per_sec (self : EncoderReader) (current_time : Z)
  : EncoderReader * Py.outcome Q :=
  match update_speed self current_time with
  | (self', Py.Return _) => (self', Py.Return (angle_speed self'))
  | (self', Py.Raise e) => (self', Py.Raise e)
  end.

(** [get_speed_rad_per_sec]:
    [self.get_speed_deg_per_sec() * 3.14159265359 / 180.0]. *)
Definition get_speed_rad_per_sec (self : EncoderReader) (current_time : Z)
  : EncoderReader * Py.outcome Q :=
  match get_speed_deg_per_sec self current_time with
  | (self', Py.Return d) => (self', Py.Return (d * PI / 180)%Q)
  | (self', Py.Raise e) => (self', Py.Raise e)
  end.

(** What can happen to an encoder between two reads: a hall edge, a
    reset, a speed update at some clock value. *)
Inductive event : Type :=
| Edge (phase : Z)
| Reset
| UpdateSpeed (current_time : Z).

Definition apply (self : EncoderReader) (ev : event) : EncoderReader :=
  match ev with
  | Edge p => edge self p
  | Reset => reset self
  | UpdateSpeed t => fst (update_speed self t)
  end.

Definition history (self : EncoderReader) (evs : list event)
  : EncoderReader :=
  fold_left apply evs self.

End Encoder.

(** ** pid_controller.py: the regulator *)

Module PID.

Record PIDController : Type := mkPID {
  kp : Q;
  ki : Q;
  kd : Q;
  setpoint : Q;
  output_min : Q;
  output_max : Q;
  sample_time : Q;
  last_error : Q;
  integral : Q;
  last_time : Z;
  output : Q;
  error : Q;
  p_term : Q;
  i_term : Q;
  d_term : Q;
  integral_limit : Q;
  derivative_filter_alpha : Q;
  last_derivative : Q
}.

(** [__init__]; [now] is the value of [utime.ticks_ms()]. *)
Definition init (now : Z) (kp ki kd setpoint output_min output_max
                           sample_time : Q) : PIDController :=
  {| kp := kp; ki := ki; kd := kd;
     setpoint := setpoint;
     output_min := output_min;
     output_max := output_max;
     sample_time := sample_time;
     last_error := 0;
     integral := 0;
     last_time := now;
     output := 0;
     error := 0;
     p_term := 0;
     i_term := 0;
     d_term := 0;
     integral_limit := output_max * 0.8;
     derivative_filter_alpha := 0.1;
     last_derivative := 0 |}%Q.

(** The default arguments of [__init__]. *)
Definition default_output_min : Q := (-100)%Q.
Definition default_output_max : Q := 100%Q.
Definition default_sample_time : Q := 0.01%Q.

(** The sampling gate of [update]: the call comes too early. *)
Definition too_early (self : PIDController) (current_time : Z) : bool :=
  Py.ticks_diff current_time (last_time self)
    <? Py.int (sample_time self * 1000).

(** The anti-windup clamp of the integral. *)
Definition clamp_integral (limit x : Q) : Q :=
  if Py.gt x limit then limit
  else if Py.lt x (- limit) then (- limit)%Q
  else x.

(** The output limit. *)
Definition clamp_output (lo hi x : Q) : Q :=
  if Py.gt x hi then hi
  else if Py.lt x lo then lo
  else x.

(** [update(current_value)]; [current_time] is the value of
    [utime.ticks_ms()].  The object is returned together with the
    outcome, since what was assigned before an exception stays
    assigned. *)
Definition update (self : PIDController) (current_time : Z)
           (current_value : Q) : PIDController * Py.outcome Q :=
  if too_early self current_time then (self, Py.Return (output self))
  else
    let error' := (setpoint self - current_value)%Q in
    let p_term' := (kp self * error')%Q in
    let integral' :=
      clamp_integral (integral_limit self)
                     (integral self + error' * sample_time self)%Q in
    let i_term' := (ki self * integral')%Q in
    match Py.div (error' - last_error self)%Q (sample_time self) with
    | Py.Raise e =>
        ({| kp := kp self; ki := ki self; kd := kd self;
            setpoint := setpoint self;
            output_min := output_min self;
            output_max := output_max self;
            sample_time := sample_time self;
            last_error := last_error self;
            integral := integral';
            last_time := last_time self;
            output := output self;
            error := error';
            p_term := p_term';
            i_term := i_term';
            d_term := d_term self;
            integral_limit := integral_limit self;
            derivative_filter_alpha := derivative_filter_alpha self;
            last_derivative := last_derivative self |}, Py.Raise e)
    | Py.Return derivative =>
        let filtered_derivative :=
          (derivative_filter_alpha self * derivative
           + (1 - derivative_filter_alpha self) * last_derivative self)%Q in
        let d_term' := (kd self * filtered_derivative)%Q in
        let output' :=
          clamp_output (output_min self) (output_max self)
                       (p_term' + i_term' + d_term')%Q in
        ({| kp := kp self; ki := ki self; kd := kd self;
            setpoint := setpoint self;
            output_min := output_min self;
            output_max := output_max self;
            sample_time := sample_time self;
            last_error := error';
            integral := integral';
            last_time := current_time;
            output := output';
            error := error';
            p_term := p_term';
            i_term := i_term';
            d_term := d_term';
            integral_limit := integral_limit self;
            derivative_filter_alpha := derivative_filter_alpha self;
            last_derivative := filtered_derivative |}, Py.Return output')
    end.

Definition set_tunings (self : PIDController) (kp' ki' kd' : Q)
  : PIDController :=
  {| kp := kp'; ki := ki'; kd := kd';
     setpoint := setpoint self;
     output_min := output_min self;
     output_max := output_max self;
     sample_time := sample_time self;
     last_error := last_error self;
     integral := integral self;
     last_time := last_time self;
     output := output self;
     error := error self;
     p_term := p_term self;
     i_term := i_term self;
     d_term := d_term self;
     integral_limit := integral_limit self;
     derivative_filter_alpha := derivative_filter_alpha self;
     last_derivative := last_derivative self |}.

Definition set_setpoint (self : PIDController) (setpoint' : Q)
  : PIDController :=
  {| kp := kp self; ki := ki self; kd := kd self;
     setpoint := setpoint';
     output_min := output_min self;
     output_max := output_max self;
     sample_time := sample_time self;
     last_error := last_error self;
     integral := 0%Q;
     last_time := last_time self;
     output := output self;
     error := error self;
     p_term := p_term self;
     i_term := i_term self;
     d_term := d_term self;
     integral_limit := integral_limit self;
     derivative_filter_alpha := derivative_filter_alpha self;
     last_derivative := last_derivative self |}.

(** [reset()]; [now] is the value of [utime.ticks_ms()]. *)
Definition reset (self : PIDController) (now : Z) : PIDController :=
  {| kp := kp self; ki := ki self; kd := kd self;
     setpoint := setpoint self;
     output_min := output_min self;
     output_max := output_max self;
     sample_time := sample_time self;
     last_error := 0%Q;
     integral := 0%Q;
     last_time := now;
     output := 0%Q;
     error := error self;
     p_term := p_term self;
     i_term := i_term self;
     d_term := d_term self;
     integral_limit := integral_limit self;
     derivative_filter_alpha := derivative_filter_alpha self;
     last_derivative := 0%Q |}.

(** A call on the controller, with the clock value it reads if any. *)
Inductive call : Type :=
| Update (current_time : Z) (current_value : Q)
| SetTunings (kp ki kd : Q)
| SetSetpoint (setpoint : Q)
| Reset (now : Z).

Definition exec (self : PIDController) (c : call) : PIDController :=
  match c with
  | Update t v => fst (update self t v)
  | SetTunings p i d => set_tunings self p i d
  | SetSetpoint sp => set_setpoint self sp
  | Reset t => reset self t
  end.

(** The controller after a sequence of calls, in order. *)
Definition run (self : PIDController) (cs : list call) : PIDController :=
  fold_left exec cs self.

End PID.

(** ** pid_controller.py: the step-response analyser of [PIDTuner] *)

Module Tuner.

(** One entry of [data_points]. *)
Record DataPoint : Type := mkPoint {
  time : Q;
  setpoint : Q;
  actual : Q;
  error : Q;
  output : Q
}.

(** The figures [_analyze_step_response] computes and prints. *)
Record Analysis : Type := mkAnalysis {
  steady_state_value : Q;
  overshoot : Q;
  steady_state_error : Q;
  rise_time : option Q
}.

(** The loop that looks for the 10% and the 90% crossing.  [rise_start]
    is the variable of that name; the loop is left as soon as [rise_end]
    is assigned, so [rise_end is None] holds at every test. *)
Fixpoint rise_scan (ten_percent ninety_percent : Q) (data : list DataPoint)
         (rise_start : option Q) : option Q * option Q :=
  match data with
  | [] => (rise_start, None)
  | d :: rest =>
      let rise_start :=
        match rise_start with
        | None => if Py.ge (actual d) ten_percent then Some (time d) else None
        | Some _ => rise_start
        end in
      if Py.ge (actual d) ninety_percent then (rise_start, Some (time d))
      else rise_scan ten_percent ninety_percent rest rise_start
  end.

(** The steady-state value: the mean of the last [len(data) // 10]
    measured values, taken with the slice [data[-steady_state_size:]]. *)
Definition steady_state (data : list DataPoint) : Py.outcome Q :=
  let steady_state_size := Py.len data / 10 in
  let steady_state_values :=
    map actual (Py.slice_from (- steady_state_size) data) in
  Py.div (Py.sum steady_state_values) (inject_Z (Py.len steady_state_values)).

(** The overshoot:
    [((max_value - target_value) / target_value) * 100 if target_value != 0
     else 0]. *)
Definition overshoot_percent (max_value target_value : Q) : Py.outcome Q :=
  if negb (Qeq_bool target_value 0)
  then q <- Py.div (max_value - target_value)%Q target_value ;;
       Py.Return (q * 100)%Q
  else Py.Return 0%Q.

(** The rise time: [(rise_end - rise_start) if (rise_start and rise_end)
    else None], after the loop. *)
Definition rise_time_between (rise_start rise_end : option Q) : option Q :=
  match rise_start, rise_end with
  | Some s, Some e =>
      if Py.truthy_opt rise_start && Py.truthy_opt rise_end
      then Some (e - s)%Q else None
  | _, _ => None
  end.

(** [_analyze_step_response(data)]: [None] is the early return on empty
    data. *)
Definition _analyze_step_response (data : list DataPoint)
  : Py.outcome (option Analysis) :=
  match data with
  | [] => Py.Return None
  | d0 :: rest =>
      steady_state_value <- steady_state data ;;
      let max_value := Py.max_list (actual d0) (map actual rest) in
      let target_value := setpoint d0 in
      overshoot <- overshoot_percent max_value target_value ;;
      let steady_state_error := Py.abs (target_value - steady_state_value) in
      let ten_percent := (target_value * 0.1)%Q in
      let ninety_percent := (target_value * 0.9)%Q in
      let scan := rise_scan ten_percent ninety_percent data None in
      let rise_time := rise_time_between (fst scan) (snd scan) in
      Py.Return (Some {| steady_state_value := steady_state_value;
                         overshoot := overshoot;
                         steady_state_error := steady_state_error;
                         rise_time := rise_time |})
  end.

(** What [auto_tune_step_response] sends to the motor driver. *)
Inductive motor_call : Type :=
| SetSpeed (speed : Q)
| Stop.

(** What one turn of the [while] loop reads: the clock in the loop test,
    the hall edges handled since the previous read of the angle, the clock
    for [current_time] and the clock inside [pid.update]. *)
Record Pass : Type := mkPass {
  test_clock : Z;
  hall_edges : list Z;
  time_clock : Z;
  update_clock : Z
}.

(** The objects the method works on and the list it builds. *)
Record Locals : Type := mkLocals {
  pid : PID.PIDController;
  encoder : Encoder.EncoderReader;
  data_points : list DataPoint;
  motor_calls : list motor_call
}.

(** The [while] loop of [auto_tune_step_response] over the readings
    [passes]: it is left when the loop test fails; [None] when the readings
    end before it does. *)
Fixpoint tune_loop (duration : Q) (start_time : Z) (target_angle : Q)
         (passes : list Pass) (l : Locals)
  : option (Locals * Py.outcome unit) :=
  match passes with
  | [] => None
  | p :: rest =>
      if Py.ticks_diff (test_clock p) start_time <? Py.int (duration * 1000)
      then
        let enc := Encoder.edges (encoder l) (hall_edges p) in
        match Encoder.get_angle enc with
        | Py.Raise e =>
            Some ({| pid := pid l; encoder := enc;
                     data_points := data_points l;
                     motor_calls := motor_calls l |}, Py.Raise e)
        | Py.Return current_angle =>
            let current_time :=
              (inject_Z (Py.ticks_diff (time_clock p) start_time) / 1000)%Q in
            match PID.update (pid l) (update_clock p) current_angle with
            | (pid', Py.Raise e) =>
                Some ({| pid := pid'; encoder := enc;
                         data_points := data_points l;
                         motor_calls := motor_calls l |}, Py.Raise e)
            | (pid', Py.Return control_output) =>
                tune_loop duration start_time target_angle rest
                  {| pid := pid';
                     encoder := enc;
                     data_points :=
                       data_points l
                       ++ [ {| time := current_time;
                               setpoint := target_angle;
                               actual := current_angle;
                               error := PID.error pid';
                               output := control_output |} ];
                     motor_calls :=
                       motor_calls l ++ [SetSpeed control_output] |}
            end
        end
      else Some (l, Py.Return tt)
  end.

(** [auto_tune_step_response(motor, encoder, step_size, duration)]: the
    controller and the calls on the motor at the end, and the data points
    returned or the exception.  [start_time] is the clock read before the
    loop. *)
Definition auto_tune_step_response
           (pid0 : PID.PIDController) (enc : Encoder.EncoderReader)
           (step_size duration : Q) (start_time : Z) (passes : list Pass)
  : option (PID.PIDController * list motor_call
            * Py.outcome (list DataPoint)) :=
  match Encoder.get_angle enc with
  | Py.Raise e => Some (pid0, [], Py.Raise e)
  | Py.Return initial_angle =>
      let target_angle := (initial_angle + step_size)%Q in
      let pid1 := PID.set_setpoint pid0 target_angle in
      match tune_loop duration start_time target_angle passes
                      {| pid := pid1; encoder := enc; data_points := [];
                         motor_calls := [] |} with
      | None => None
      | Some (l, Py.Raise e) => Some (pid l, motor_calls l, Py.Raise e)
      | Some (l, Py.Return _) =>
          let calls := motor_calls l ++ [Stop] in
          match _analyze_step_response (data_points l) with
          | Py.Raise e => Some (pid l, calls, Py.Raise e)
          | Py.Return _ => Some (pid l, calls, Py.Return (data_points l))
          end
      end
  end.

End Tuner.

(** ** pid_tuning_guide.py: the tuning wizard *)

Module Wizard.

(** One entry of [data] in [step_test]. *)
Record Sample : Type := mkSample {
  time : Q;
  angle : Q;
  error : Q;
  output : Q
}.

(** The first sample at or above a level, if any. *)
Fixpoint first_reaching (level : Q) (data : list Sample) : option Sample :=
  match data with
  | [] => None
  | point :: rest =>
      if Py.ge (angle point) level then Some point
      else first_reaching level rest
  end.

(** [_calculate_rise_time(data, target)]. *)
Definition _calculate_rise_time (data : list Sample) (target : Q)
  : option Q :=
  match data with
  | [] => None
  | _ =>
      let ten_percent := (target * 0.1)%Q in
      let ninety_percent := (target * 0.9)%Q in
      let rise_start_time :=
        match first_reaching ten_percent data with
        | Some point => Some (time point)
        | None => None
        end in
      match first_reaching ninety_percent data with
      | Some point =>
          match rise_start_time with
          | Some t0 =>
              if Py.truthy t0 then Some (time point - t0)%Q else None
          | None => None
          end
      | None => None
      end
  end.

(** The loop [for i in range(len(data)-1, 0, -1)] of
    [_calculate_settling_time], entered at index [i]; [d] stands for an
    index that is out of range, which the loop never reads. *)
Fixpoint settling_scan (data : list Sample) (target tolerance_band : Q)
         (d : Sample) (i : nat) : Q :=
  match i with
  | O => time (Py.last_item data d)
  | S j =>
      if Py.gt (Py.abs (angle (nth i data d) - target)) tolerance_band
      then if (Z.of_nat i + 1 <? Py.len data)
           then time (nth (i + 1) data d)
           else time (Py.last_item data d)
      else settling_scan data target tolerance_band d j
  end.

(** [_calculate_settling_time(data, target)] (the parameter [tolerance]
    is not used by the body). *)
Definition _calculate_settling_time (data : list Sample) (target : Q)
  : option Q :=
  match data with
  | [] => None
  | d :: _ =>
      let tolerance_band := (target * 0.02)%Q in
      Some (settling_scan data target tolerance_band d
                          (Z.to_nat (Py.len data - 1)))
  end.

(** What [step_test] sends to the motor driver. *)
Inductive motor_call : Type :=
| SetSpeed (speed : Q)
| Stop.

(** What one pass of the test loop reads from its surroundings: the hall
    edge events handled since the previous pass, the clock inside
    [pid.update] and the clock when the sample is recorded. *)
Record Cycle : Type := mkCycle {
  hall_edges : list Z;
  update_clock : Z;
  record_clock : Z
}.

(** The local variables of [step_test] that the loop changes, with the
    encoder of the wizard and the calls made on its motor so far. *)
Record Locals : Type := mkLocals {
  pid : PID.PIDController;
  encoder : Encoder.EncoderReader;
  data : list Sample;
  max_angle : Q;
  min_angle : Q;
  steady_state_errors : list Q;
  oscillation_count : Z;
  last_error_sign : Z;
  motor_calls : list motor_call
}.

(** The result dictionary of [step_test]. *)
Record Results : Type := mkResults {
  res_kp : Q;
  res_ki : Q;
  res_kd : Q;
  res_max_angle : Q;
  res_min_angle : Q;
  res_overshoot : Q;
  res_undershoot : Q;
  res_final_error : Q;
  res_steady_state_error : Q;
  res_oscillation_count : Z;
  res_rise_time : option Q;
  res_settling_time : option Q;
  res_data : list Sample
}.

(** The speed limit applied before [motor.set_speed]:
    [max(-80, min(80, control_output))]. *)
Definition safety_band (control_output : Q) : Q :=
  Py.max (-80)%Q (Py.min 80%Q control_output).

(** One pass of the loop body of [step_test]. *)
Definition cycle (test_time : Q) (start_time : Z) (c : Cycle) (l : Locals)
  : Locals * Py.outcome unit :=
  let enc := Encoder.edges (encoder l) (hall_edges c) in
  match Encoder.get_angle enc with
  | Py.Raise e =>
      ({| pid := pid l; encoder := enc; data := data l;
          max_angle := max_angle l; min_angle := min_angle l;
          steady_state_errors := steady_state_errors l;
          oscillation_count := oscillation_count l;
          last_error_sign := last_error_sign l;
          motor_calls := motor_calls l |}, Py.Raise e)
  | Py.Return current_angle =>
      match PID.update (pid l) (update_clock c) current_angle with
      | (pid', Py.Raise e) =>
          ({| pid := pid'; encoder := enc; data := data l;
              max_angle := max_angle l; min_angle := min_angle l;
              steady_state_errors := steady_state_errors l;
              oscillation_count := oscillation_count l;
              last_error_sign := last_error_sign l;
              motor_calls := motor_calls l |}, Py.Raise e)
      | (pid', Py.Return control_output) =>
          let control_output := safety_band control_output in
          let current_time :=
            (inject_Z (Py.ticks_diff (record_clock c) start_time) / 1000)%Q in
          let current_error_sign :=
            if Py.gt (PID.error pid') 0%Q then 1 else -1 in
          ({| pid := pid';
              encoder := enc;
              data := data l ++ [ {| time := current_time;
                                     angle := current_angle;
                                     error := PID.error pid';
                                     output := control_output |} ];
              max_angle := if Py.gt current_angle (max_angle l)
                           then current_angle else max_angle l;
              min_angle := if Py.lt current_angle (min_angle l)
                           then current_angle else min_angle l;
              steady_state_errors :=
                if Py.gt current_time (test_time - 1)%Q
                then steady_state_errors l ++ [Py.abs (PID.error pid')]
                else steady_state_errors l;
              oscillation_count :=
                if negb (last_error_sign l =? 0)
                   && negb (current_error_sign =? last_error_sign l)
                then oscillation_count l + 1
                else oscillation_count l;
              last_error_sign := current_error_sign;
              motor_calls := motor_calls l ++ [SetSpeed control_output] |},
           Py.Return tt)
      end
  end.

(** [for i in range(n)]: passes [i], [i+1], ... of the loop; [env i] is
    what pass [i] reads. *)
Fixpoint loop (test_time : Q) (start_time : Z) (env : nat -> Cycle)
         (n i : nat) (l : Locals) : Locals * Py.outcome unit :=
  match n with
  | O => (l, Py.Return tt)
  | S n' =>
      match cycle test_time start_time (env i) l with
      | (l', Py.Return _) => loop test_time start_time env n' (S i) l'
      | (l', Py.Raise e) => (l', Py.Raise e)
      end
  end.

(** The result dictionary, built after the motor is stopped. *)
Definition results (kp ki kd step_angle : Q) (l : Locals)
  : Py.outcome Results :=
  overshoot <-
    (if Py.gt (max_angle l) step_angle
     then q <- Py.div (max_angle l - step_angle)%Q step_angle ;;
          Py.Return (q * 100)%Q
     else Py.Return 0%Q) ;;
  undershoot <-
    (if Py.lt (min_angle l) 0%Q
     then q <- Py.div (step_angle - min_angle l)%Q step_angle ;;
          Py.Return (q * 100)%Q
     else Py.Return 0%Q) ;;
  let final_error :=
    match data l with
    | [] => 0%Q
    | d :: _ => Py.abs (error (Py.last_item (data l) d))
    end in
  steady_state_error <-
    (match steady_state_errors l with
     | [] => Py.Return 0%Q
     | _ => Py.div (Py.sum (steady_state_errors l))
                   (inject_Z (Py.len (steady_state_errors l)))
     end) ;;
  Py.Return {| res_kp := kp; res_ki := ki; res_kd := kd;
               res_max_angle := max_angle l;
               res_min_angle := min_angle l;
               res_overshoot := overshoot;
               res_undershoot := undershoot;
               res_final_error := final_error;
               res_steady_state_error := steady_state_error;
               res_oscillation_count := oscillation_count l;
               res_rise_time := _calculate_rise_time (data l) step_angle;
               res_settling_time :=
                 _calculate_settling_time (data l) step_angle;
               res_data := data l |}.

(** The clock values [step_test] reads outside the loop: in the
    constructor of the controller, in [pid.reset()] and for
    [start_time]. *)
Record Clocks : Type := mkClocks {
  init_clock : Z;
  reset_clock : Z;
  start_clock : Z
}.

(** The local variables when the loop is entered; [enc] is the encoder
    of the wizard. *)
Definition entry (enc : Encoder.EncoderReader)
           (kp ki kd step_angle : Q) (clk : Clocks) : Locals :=
  let pid :=
    PID.init (init_clock clk) kp ki kd step_angle PID.default_output_min
             PID.default_output_max PID.default_sample_time in
  {| pid := PID.reset pid (reset_clock clk);
     encoder := Encoder.reset enc;
     data := [];
     max_angle := 0%Q;
     min_angle := 0%Q;
     steady_state_errors := [];
     oscillation_count := 0;
     last_error_sign := 0;
     motor_calls := [] |}.

(** [step_test(kp, ki, kd, step_angle, test_time)]: the calls made on the
    motor driver, and the result dictionary or the exception. *)
Definition step_test (enc : Encoder.EncoderReader) (kp ki kd step_angle
                      test_time : Q) (clk : Clocks) (env : nat -> Cycle)
  : list motor_call * Py.outcome Results :=
  let n := Z.to_nat (Py.int (test_time * 100)) in
  match loop test_time (start_clock clk) env n 0%nat
             (entry enc kp ki kd step_angle clk) with
  | (l, Py.Raise e) => (motor_calls l, Py.Raise e)
  | (l, Py.Return _) =>
      let l' :=
        {| pid := pid l; encoder := encoder l; data := data l;
           max_angle := max_angle l; min_angle := min_angle l;
           steady_state_errors := steady_state_errors l;
           oscillation_count := oscillation_count l;
           last_error_sign := last_error_sign l;
           motor_calls := motor_calls l ++ [Stop] |} in
      (motor_calls l', results kp ki kd step_angle l')
  end.

(** [print_results(results)]: the score it returns. *)
Definition print_results (results : Results) : Z :=
  let score := 0 in
  let score :=
    if Py.lt (res_overshoot results) 10%Q then score + 25
    else if Py.lt (res_overshoot results) 20%Q then score + 20
    else if Py.lt (res_overshoot results) 30%Q then score + 10
    else score in
  let score :=
    if Py.lt (res_steady_state_error results) 1%Q then score + 25
    else if Py.lt (res_steady_state_error results) 2%Q then score + 20
    else if Py.lt (res_steady_state_error results) 5%Q then score + 10
    else score in
  let score :=
    if res_oscillation_count results <=? 1 then score + 25
    else if res_oscillation_count results <=? 2 then score + 20
    else if res_oscillation_count results <=? 4 then score + 10
    else score in
  let rise_below (bound : Q) : bool :=
    match res_rise_time results with
    | Some r => Py.truthy r && Py.lt r bound
    | None => false
    end in
  let score :=
    if rise_below 1%Q then score + 25
    else if rise_below 2%Q then score + 20
    else if rise_below 3%Q then score + 10
    else score in
  score.

(** The messages of [suggest_improvements], in the order of the source:
    overshoot too large; response slow; steady-state error large; raise Ki
    a little; many oscillations; response too slow; well tuned. *)
Inductive suggestion : Type :=
| ReduceKpOrRaiseKd
| RaiseKp
| RaiseKi
| RaiseKiSlightly
| RaiseKd
| RaiseKpOrOutputLimit
| WellTuned.

(** [suggest_improvements(results)]: the list it returns. *)
Definition suggest_improvements (results : Results) : list suggestion :=
  let rise_above (bound : Q) : bool :=
    match res_rise_time results with
    | Some r => Py.truthy r && Py.gt r bound
    | None => false
    end in
  let suggestions := [] in
  let suggestions :=
    if Py.gt (res_overshoot results) 25%Q
    then suggestions ++ [ReduceKpOrRaiseKd]
    else if Py.lt (res_overshoot results) 5%Q && rise_above 2%Q
    then suggestions ++ [RaiseKp]
    else suggestions in
  let suggestions :=
    if Py.gt (res_steady_state_error results) 3%Q
    then suggestions ++ [RaiseKi]
    else if Py.gt (res_steady_state_error results) 1%Q
    then suggestions ++ [RaiseKiSlightly]
    else suggestions in
  let suggestions :=
    if 3 <? res_oscillation_count results
    then suggestions ++ [RaiseKd]
    else suggestions in
  let suggestions :=
    if rise_above 3%Q
    then suggestions ++ [RaiseKpOrOutputLimit]
    else suggestions in
  match suggestions with
  | [] => [WellTuned]
  | _ => suggestions
  end.

End Wizard.

(** ** N-meas.py: the counting script with the direction table *)

Module NMeas.

(** The globals [count] and [prev]. *)
Record Globals : Type := mkGlobals {
  count : Z;
  prev : Z
}.

(** The direction table, indexed by [(prev << 2) | curr]. *)
Definition lookup : list Z :=
  [ 0;  1; -1;  0;
   -1;  0;  0;  1;
    1;  0;  0; -1;
    0; -1;  1;  0].

(** [(pinA.value() << 1) | pinB.value()], for the levels [a] and [b]. *)
Definition read_phase (a b : bool) : Z :=
  Z.lor (Z.shiftl (Z.b2z a) 1) (Z.b2z b).

(** [l[i]] on a list: a negative index counts from the end, and an index
    outside the list is an [IndexError], here [None]. *)
Definition getitem (l : list Z) (i : Z) : option Z :=
  if 0 <=? i then nth_error l (Z.to_nat i)
  else if - Py.len l <=? i then nth_error l (Z.to_nat (Py.len l + i))
  else None.

(** [irq_handler]: [a], [b] are the levels the two pins have inside the
    handler. *)
Definition irq_handler (g : Globals) (a b : bool) : option Globals :=
  let curr := read_phase a b in
  let idx := Z.lor (Z.shiftl (prev g) 2) curr in
  match getitem lookup idx with
  | Some d => Some {| count := count g + d; prev := curr |}
  | None => None
  end.

(** [reset_count], which is also how the script starts. *)
Definition reset_count (a b : bool) : Globals :=
  {| count := 0; prev := read_phase a b |}.

Definition read_count (g : Globals) : Z := count g.

(** A run of interrupts, each with the levels it finds. *)
Fixpoint irqs (g : Globals) (levels : list (bool * bool)) : option Globals :=
  match levels with
  | [] => Some g
  | (a, b) :: rest =>
      match irq_handler g a b with
      | Some g' => irqs g' rest
      | None => None
      end
  end.

End NMeas.

(** ** motor_driver.py *)

Module Motor.

(** The driver as its outputs: the two direction pins, the duty written to
    the PWM, and the stored speed. *)
Record MotorDriver : Type := mkMotor {
  in1 : bool;
  in2 : bool;
  duty_u16 : Z;
  speed : Q;
  freq : Z
}.

(** [stop()]: brake. *)
Definition stop (self : MotorDriver) : MotorDriver :=
  {| in1 := true; in2 := true; duty_u16 := 65535; speed := 0%Q;
     freq := freq self |}.

(** [__init__]: the speed is set to 0 and [stop()] is called. *)
Definition init (freq : Z) : MotorDriver :=
  stop {| in1 := false; in2 := false; duty_u16 := 0; speed := 0%Q;
          freq := freq |}.

(** [set_speed(speed)]. *)
Definition set_speed (self : MotorDriver) (speed : Q) : MotorDriver :=
  let speed := Py.max (-100)%Q (Py.min 100%Q speed) in
  let duty := Py.int (Py.abs speed * 65535 / 100)%Q in
  if Py.gt speed 0%Q then
    {| in1 := true; in2 := false; duty_u16 := duty; speed := speed;
       freq := freq self |}
  else if Py.lt speed 0%Q then
    {| in1 := false; in2 := true; duty_u16 := duty; speed := speed;
       freq := freq self |}
  else
    stop {| in1 := in1 self; in2 := in2 self; duty_u16 := duty_u16 self;
            speed := speed; freq := freq self |}.

Definition forward (self : MotorDriver) (speed : Q) : MotorDriver :=
  set_speed self (Py.abs speed).

Definition backward (self : MotorDriver) (speed : Q) : MotorDriver :=
  set_speed self (- Py.abs speed)%Q.

(** [coast()]: power off, no brake. *)
Definition coast (self : MotorDriver) : MotorDriver :=
  {| in1 := false; in2 := false; duty_u16 := 0; speed := 0%Q;
     freq := freq self |}.

Definition get_speed (self : MotorDriver) : Q := speed self.

(** A call on the driver. *)
Inductive call : Type :=
| SetSpeed (speed : Q)
| Forward (speed : Q)
| Backward (speed : Q)
| Stop
| Coast.

Definition exec (self : MotorDriver) (c : call) : MotorDriver :=
  match c with
  | SetSpeed v => set_speed self v
  | Forward v => forward self v
  | Backward v => backward self v
  | Stop => stop self
  | Coast => coast self
  end.

Definition run (self : MotorDriver) (cs : list call) : MotorDriver :=
  fold_left exec cs self.

(** The calls [step_test] makes, as calls on this driver. *)
Definition of_wizard (c : Wizard.motor_call) : call :=
  match c with
  | Wizard.SetSpeed v => SetSpeed v
  | Wizard.Stop => Stop
  end.

End Motor.

(** ** main_control.py: the angle controller *)

Module Controller.

Inductive mode : Type := IDLE | MANUAL | AUTO.

Definition mode_eqb (a b : mode) : bool :=
  match a, b with
  | IDLE, IDLE | MANUAL, MANUAL | AUTO, AUTO => true
  | _, _ => false
  end.

Record MotorAngleController : Type := mkController {
  motor : Motor.MotorDriver;
  encoder : Encoder.EncoderReader;
  pid : PID.PIDController;
  is_running : bool;
  current_mode : mode;
  target_angle : Q;
  last_update_time : Z;
  control_loop_time : Q
}.

(** [__init__], from the three objects it builds; [now] is the value of
    [utime.ticks_ms()]. *)
Definition init (m : Motor.MotorDriver) (e : Encoder.EncoderReader)
           (p : PID.PIDController) (now : Z) : MotorAngleController :=
  {| motor := m; encoder := e; pid := p;
     is_running := false;
     current_mode := IDLE;
     target_angle := 0%Q;
     last_update_time := now;
     control_loop_time := 0.01%Q |}.

Definition set_target_angle (self : MotorAngleController) (angle : Q)
  : MotorAngleController :=
  {| motor := motor self; encoder := encoder self;
     pid := PID.set_setpoint (pid self) angle;
     is_running := is_running self;
     current_mode := current_mode self;
     target_angle := angle;
     last_update_time := last_update_time self;
     control_loop_time := control_loop_time self |}.

Definition start_control (self : MotorAngleController)
  : MotorAngleController :=
  if is_running self then self
  else
    {| motor := motor self; encoder := encoder self; pid := pid self;
       is_running := true;
       current_mode := AUTO;
       target_angle := target_angle self;
       last_update_time := last_update_time self;
       control_loop_time := control_loop_time self |}.

Definition stop_control (self : MotorAngleController)
  : MotorAngleController :=
  {| motor := Motor.stop (motor self);
     encoder := encoder self; pid := pid self;
     is_running := false;
     current_mode := IDLE;
     target_angle := target_angle self;
     last_update_time := last_update_time self;
     control_loop_time := control_loop_time self |}.

Definition manual_control (self : MotorAngleController) (speed : Q)
  : MotorAngleController :=
  {| motor := Motor.set_speed (motor self) speed;
     encoder := encoder self; pid := pid self;
     is_running := is_running self;
     current_mode := MANUAL;
     target_angle := target_angle self;
     last_update_time := last_update_time self;
     control_loop_time := control_loop_time self |}.

(** A line printed by [print_status]. *)
Record Status : Type := mkStatus {
  st_mode : mode;
  st_target : Q;
  st_current : Q;
  st_error : Q;
  st_output : Q
}.

(** [print_status()]: the line it prints. *)
Definition print_status (self : MotorAngleController) : Py.outcome Status :=
  current_angle <- Encoder.get_angle (encoder self) ;;
  Py.Return {| st_mode := current_mode self;
               st_target := target_angle self;
               st_current := current_angle;
               st_error := PID.error (pid self);
               st_output := PID.output (pid self) |}.

(** [update()]: [current_time] is the clock it reads itself and
    [pid_time] the clock read inside [pid.update].  The result tells what
    was printed. *)
Definition update (self : MotorAngleController) (current_time pid_time : Z)
  : MotorAngleController * Py.outcome (option Status) :=
  if negb (is_running self) || negb (mode_eqb (current_mode self) AUTO)
  then (self, Py.Return None)
  else if Py.ticks_diff current_time (last_update_time self)
          <? Py.int (control_loop_time self * 1000)
  then (self, Py.Return None)
  else
    match Encoder.get_angle (encoder self) with
    | Py.Raise e => (self, Py.Raise e)
    | Py.Return current_angle =>
        match PID.update (pid self) pid_time current_angle with
        | (pid', Py.Raise e) =>
            ({| motor := motor self; encoder := encoder self; pid := pid';
                is_running := is_running self;
                current_mode := current_mode self;
                target_angle := target_angle self;
                last_update_time := last_update_time self;
                control_loop_time := control_loop_time self |}, Py.Raise e)
        | (pid', Py.Return control_output) =>
            let self' :=
              {| motor := Motor.set_speed (motor self) control_output;
                 encoder := encoder self; pid := pid';
                 is_running := is_running self;
                 current_mode := current_mode self;
                 target_angle := target_angle self;
                 last_update_time := current_time;
                 control_loop_time := control_loop_time self |} in
            if Py.ticks_diff current_time (last_update_time self') mod 1000
               =? 0
            then match print_status self' with
                 | Py.Return line => (self', Py.Return (Some line))
                 | Py.Raise e => (self', Py.Raise e)
                 end
            else (self', Py.Return None)
        end
    end.

(** [calibrate()]. *)
Definition calibrate (self : MotorAngleController) : MotorAngleController :=
  {| motor := motor self; encoder := Encoder.reset (encoder self);
     pid := pid self;
     is_running := is_running self;
     current_mode := current_mode self;
     target_angle := target_angle self;
     last_update_time := last_update_time self;
     control_loop_time := control_loop_time self |}.

(** A hall edge handled while the controller exists. *)
Definition hall_edge (self : MotorAngleController) (phase : Z)
  : MotorAngleController :=
  {| motor := motor self; encoder := Encoder.edge (encoder self) phase;
     pid := pid self;
     is_running := is_running self;
     current_mode := current_mode self;
     target_angle := target_angle self;
     last_update_time := last_update_time self;
     control_loop_time := control_loop_time self |}.

(** A call on the controller or an edge of the hall lines. *)
Inductive call : Type :=
| SetTargetAngle (angle : Q)
| StartControl
| StopControl
| ManualControl (speed : Q)
| Update (current_time pid_time : Z)
| Calibrate
| HallEdge (phase : Z).

Definition exec (self : MotorAngleController) (c : call)
  : MotorAngleController :=
  match c with
  | SetTargetAngle a => set_target_angle self a
  | StartControl => start_control self
  | StopControl => stop_control self
  | ManualControl v => manual_control self v
  | Update t pt => fst (update self t pt)
  | Calibrate => calibrate self
  | HallEdge p => hall_edge self p
  end.

Definition run (self : MotorAngleController) (cs : list call)
  : MotorAngleController :=
  fold_left exec cs self.

End Controller.

(** ** common/servo.py: angle, pulse width and duty *)

Module Servo.

Record Servo : Type := mkServo {
  freq : Z;
  min_us : Z;
  max_us : Z;
  angle_min : Z;
  angle_max : Z;
  invert : bool;
  _period_us : Q
}.

(** The numeric part of [__init__]: [1_000_000 / self.freq] raises for a
    frequency of 0. *)
Definition init (freq min_us max_us angle_min angle_max : Z) (invert : bool)
  : Py.outcome Servo :=
  period <- Py.div 1000000%Q (inject_Z freq) ;;
  Py.Return {| freq := freq; min_us := min_us; max_us := max_us;
               angle_min := angle_min; angle_max := angle_max;
               invert := invert; _period_us := period |}.

Definition _clip_angle (self : Servo) (angle : Q) : Q :=
  let a := angle in
  let a := if Py.lt a (inject_Z (angle_min self))
           then inject_Z (angle_min self) else a in
  let a := if Py.gt a (inject_Z (angle_max self))
           then inject_Z (angle_max self) else a in
  a.

Definition _angle_to_pulse_us (self : Servo) (angle : Q) : Z :=
  let a := _clip_angle self angle in
  let span_angle := angle_max self - angle_min self in
  let frac :=
    if span_angle =? 0 then 0%Q
    else ((a - inject_Z (angle_min self)) / inject_Z span_angle)%Q in
  let frac := if invert self then (1 - frac)%Q else frac in
  let span_us := max_us self - min_us self in
  Py.int (inject_Z (min_us self) + frac * inject_Z span_us)%Q.

(** The tag that [_pulse_us_to_duty] puts first in its result. *)
Inductive duty_mode : Type := u16.

(** [_pulse_us_to_duty(pulse_us)]: [(mode, duty_u16, duty_ns, duty_old)].
    [duty_ns] is an integer unless it was cut to the period, which is a
    float. *)
Definition _pulse_us_to_duty (self : Servo) (pulse_us : Q)
  : duty_mode * Z * Q * Z :=
  let period_us := _period_us self in
  let period_ns := (period_us * 1000)%Q in
  let duty_ns := inject_Z (Py.int (pulse_us * 1000)) in
  let duty_ns := if Py.lt duty_ns 0%Q then 0%Q else duty_ns in
  let duty_ns := if Py.gt duty_ns period_ns then period_ns else duty_ns in
  let duty_frac :=
    if Py.truthy period_ns then (duty_ns / period_ns)%Q else 0%Q in
  let duty_u16 := Py.int (duty_frac * 65535) in
  let duty_u16 := if duty_u16 <? 0 then 0 else duty_u16 in
  let duty_u16 := if 65535 <? duty_u16 then 65535 else duty_u16 in
  let duty_old := Py.int (duty_frac * 1023) in
  let duty_old := if duty_old <? 0 then 0 else duty_old in
  let duty_old := if 1023 <? duty_old then 1023 else duty_old in
  (u16, duty_u16, duty_ns, duty_old).

(** How a method of the PWM object of the port ends when called: it
    works, it does not exist ([AttributeError]), or it raises something
    else. *)
Inductive pwm_method : Type := Works | Missing | Fails.

(** The PWM object of the port, as far as [write_pulse_us] uses it. *)
Record PWM : Type := mkPWM {
  pwm_duty_u16 : pwm_method;
  pwm_duty_ns : pwm_method;
  pwm_duty : pwm_method
}.

(** The write that reached the hardware. *)
Inductive written : Type :=
| by_duty_u16 (value : Z)
| by_duty_ns (value : Q)
| by_duty (value : Z).

Inductive write_result : Type :=
| Wrote (w : written)
| RuntimeError.

(** [write_pulse_us(pulse_us)] on a servo that is attached, [pwm] being
    its PWM object. *)
Definition write_pulse_us (self : Servo) (pwm : PWM) (pulse_us : Q)
  : write_result :=
  let '(mode, duty_u16, duty_ns, duty_old) := _pulse_us_to_duty self pulse_us in
  match pwm_duty_u16 pwm with
  | Works => Wrote (by_duty_u16 duty_u16)
  | _ =>
      match pwm_duty_ns pwm with
      | Works => Wrote (by_duty_ns duty_ns)
      | _ =>
          match pwm_duty pwm with
          | Works => Wrote (by_duty duty_old)
          | _ => RuntimeError
          end
      end
  end.

(** [write_angle(angle)]. *)
Definition write_angle (self : Servo) (pwm : PWM) (angle : Q)
  : write_result :=
  write_pulse_us self pwm (inject_Z (_angle_to_pulse_us self angle)).

(** [center()]. *)
Definition center (self : Servo) (pwm : PWM) : write_result :=
  let mid := (inject_Z (angle_min self + angle_max self) / 2)%Q in
  write_angle self pwm mid.

(** [range(start, stop, step)] for a step other than 0. *)
Definition range (start stop step : Z) : list Z :=
  let n :=
    if 0 <? step then (stop - start + step - 1) / step
    else (start - stop - step - 1) / (- step) in
  map (fun i => start + Z.of_nat i * step) (seq 0 (Z.to_nat n)).

(** [sweep(start, end, step)]: the angles it passes to [write_angle], in
    order.  [None] stands for an argument left out. *)
Definition sweep (self : Servo) (start end_ : option Z) (step : Z)
  : list Z :=
  let start := match start with None => angle_min self | Some v => v end in
  let end_ := match end_ with None => angle_max self | Some v => v end in
  let step := if Z.abs step =? 0 then 1 else Z.abs step in
  if start <=? end_ then range start (end_ + 1) step
  else range start (end_ - 1) (- step).

(** [calibrate(min_us, max_us, angle_min, angle_max)]. *)
Definition calibrate (self : Servo) (min_us' max_us' angle_min' angle_max'
                                      : option Z) : Py.outcome Servo :=
  let pick (new : option Z) (old : Z) : Z :=
    match new with Some v => v | None => old end in
  period <- Py.div 1000000%Q (inject_Z (freq self)) ;;
  Py.Return {| freq := freq self;
               min_us := pick min_us' (min_us self);
               max_us := pick max_us' (max_us self);
               angle_min := pick angle_min' (angle_min self);
               angle_max := pick angle_max' (angle_max self);
               invert := invert self;
               _period_us := period |}.

End Servo.

(** ** Vocabulary of the statements *)

(** The decoder as the design document words it: a table of sixteen
    count changes indexed by [(previous_phase << 2) | current_phase], with
    +1 on 00->01->11->10->00, -1 on the reverse order and 0 elsewhere.
    The source has no such table; this one is what [_encoder_irq] is
    compared with. *)
Definition spec_transition_table : list Z :=
  [ 0;  1; -1;  0;
   -1;  0;  0;  1;
    1;  0;  0; -1;
    0; -1;  1;  0].

Definition spec_delta (previous_phase current_phase : Z) : Z :=
  nth (Z.to_nat (Z.lor (Z.shiftl previous_phase 2) current_phase))
      spec_transition_table 0.

(** Both hall lines differ between two phases. *)
Definition both_bits_change (p q : Z) : bool :=
  negb (Bool.eqb (Encoder.phase_a p) (Encoder.phase_a q))
  && negb (Bool.eqb (Encoder.phase_b p) (Encoder.phase_b q)).


(** The anti-windup bound: the integral is at most [0.8 * output_max] in
    magnitude. *)
Definition integral_within_limit (s : PID.PIDController) : Prop :=
  (Qabs (PID.integral s) <= 0.8 * PID.output_max s)%Q.

(** A sample lies outside the 2% band around the target, as
    [_calculate_settling_time] tests it. *)
Definition outside_band (target : Q) (s : Wizard.Sample) : bool :=
  Py.gt (Py.abs (Wizard.angle s - target)) (target * 0.02)%Q.


(** The mean of a list of floats: [sum(l) / len(l)]. *)
Definition mean (l : list Q) : Py.outcome Q :=
  Py.div (Py.sum l) (inject_Z (Py.len l)).

(** The first recorded point of the analyser at or above a level. *)
Definition first_point_reaching (level : Q) (data : list Tuner.DataPoint)
  : option Tuner.DataPoint :=
  find (fun d => Py.ge (Tuner.actual d) level) data.

(** [max(...)] over the measured values of a non-empty run of points. *)
Definition max_actual (d : Tuner.DataPoint) (rest : list Tuner.DataPoint)
  : Q :=
  Py.max_list (Tuner.actual d) (map Tuner.actual rest).

(** A call on the motor driver respects the band of the tuning runs. *)
Definition within_band (c : Wizard.motor_call) : Prop :=
  match c with
  | Wizard.SetSpeed speed => (-80 <= speed <= 80)%Q
  | Wizard.Stop => True
  end.

(** The two facts the test loop keeps: every call on the motor is within
    the band, and [max_angle] is the maximum of 0 and the recorded angles. *)
Definition loop_invariant (l : Wizard.Locals) : Prop :=
  Forall within_band (Wizard.motor_calls l) /\
  Wizard.max_angle l = Py.max_list 0 (map Wizard.angle (Wizard.data l)).

(** Test data: a point of the analyser and a sample of the wizard with a
    time and a measured angle, for the target [target]. *)
Definition point (target t x : Q) : Tuner.DataPoint :=
  {| Tuner.time := t; Tuner.setpoint := target; Tuner.actual := x;
     Tuner.error := (target - x)%Q; Tuner.output := 0%Q |}.

Definition sample (target t x : Q) : Wizard.Sample :=
  {| Wizard.time := t; Wizard.angle := x;
     Wizard.error := (target - x)%Q; Wizard.output := 0%Q |}.


(** A short test run: an encoder with four counts per turn (90 degrees a
    count) that is at rest in the first pass and receives one forward edge
    before each of the next two, with passes 10 ms apart. *)
Definition quarter_turn_encoder : Encoder.EncoderReader :=
  Encoder.init false false 0 1 4.

Definition quarter_turn_run (i : nat) : Wizard.Cycle :=
  {| Wizard.hall_edges := nth i [[]; [1]; [3]] [];
     Wizard.update_clock := 10 * (Z.of_nat i + 1);
     Wizard.record_clock := 10 * (Z.of_nat i + 1) |}.

Definition clocks_at_zero : Wizard.Clocks :=
  {| Wizard.init_clock := 0; Wizard.reset_clock := 0;
     Wizard.start_clock := 0 |}.




(** ** Facts about the run-time operations *)

Section PyFacts.

Lemma lt_spec (x y : Q) : Py.lt x y = true <-> (x < y)%Q.
Proof. unfold Py.lt, Qlt. apply Z.ltb_lt. Qed.

Lemma lt_false (x y : Q) : Py.lt x y = false <-> (y <= x)%Q.
Proof. unfold Py.lt, Qle. apply Z.ltb_ge. Qed.

Lemma gt_spec (x y : Q) : Py.gt x y = true <-> (y < x)%Q.
Proof. unfold Py.gt. apply lt_spec. Qed.

Lemma gt_false (x y : Q) : Py.gt x y = false <-> (x <= y)%Q.
Proof. unfold Py.gt. apply lt_false. Qed.

Lemma ge_spec (x y : Q) : Py.ge x y = true <-> (y <= x)%Q.
Proof. unfold Py.ge. apply Qle_bool_iff. Qed.

Lemma truthy_zero (x : Q) : (x == 0)%Q -> Py.truthy x = false.
Proof.
  intros H. unfold Py.truthy.
  apply Qeq_bool_iff in H. now rewrite H.
Qed.


Lemma div_nonzero (x y : Q) : ~ (y == 0)%Q -> Py.div x y = Py.Return (x / y)%Q.
Proof.
  intros H. unfold Py.div.
  destruct (Qeq_bool y 0) eqn:E; [|reflexivity].
  apply Qeq_bool_iff in E. contradiction.
Qed.


Lemma min_le_first (a b : Q) : (Py.min a b <= a)%Q.
Proof.
  unfold Py.min. destruct (Py.lt b a) eqn:E.
  - apply lt_spec in E. apply Qlt_le_weak, E.
  - apply Qle_refl.
Qed.

Lemma max_ge_first (a b : Q) : (a <= Py.max a b)%Q.
Proof.
  unfold Py.max. destruct (Py.gt b a) eqn:E.
  - apply gt_spec in E. apply Qlt_le_weak, E.
  - apply Qle_refl.
Qed.

Lemma max_le (a b c : Q) : (a <= c)%Q -> (b <= c)%Q -> (Py.max a b <= c)%Q.
Proof. intros Ha Hb. unfold Py.max. now destruct (Py.gt b a). Qed.

End PyFacts.

(** ** Decoder: complete cycles and phase jumps *)

Section DecoderCount.

Import Encoder.

Variable e : EncoderReader.

Lemma last_phase_range : 0 <= last_phase e < 4.
Proof.
  unfold last_phase.
  destruct (_last_a_state e), (_last_b_state e); simpl; lia.
Qed.

Lemma last_phase_zero :
  last_phase e = 0 -> _last_a_state e = false /\ _last_b_state e = false.
Proof.
  unfold last_phase.
  destruct (_last_a_state e), (_last_b_state e); simpl; intros; try lia;
    now split.
Qed.

(** One edge: the levels the handler remembers, and the count. *)
Lemma edge_last_a (x : EncoderReader) (p : Z) :
  _last_a_state (edge x p) = phase_a p.
Proof. reflexivity. Qed.

Lemma edge_last_b (x : EncoderReader) (p : Z) :
  _last_b_state (edge x p) = phase_b p.
Proof. reflexivity. Qed.

Lemma edge_count (x : EncoderReader) (p : Z) :
  count (edge x p)
  = count x
    + (if negb (Bool.eqb (phase_a p) (_last_a_state x))
       then if negb (Bool.eqb (phase_a p) (phase_b p)) then 1 else -1
       else if negb (Bool.eqb (phase_b p) (_last_b_state x))
            then if Bool.eqb (phase_b p) (phase_a p) then 1 else -1
            else 0).
Proof.
  unfold edge, _encoder_irq.
  destruct (negb (Bool.eqb (phase_a p) (_last_a_state x))).
  - destruct (negb (Bool.eqb (phase_a p) (phase_b p))); simpl; lia.
  - destruct (negb (Bool.eqb (phase_b p) (_last_b_state x))).
    + destruct (Bool.eqb (phase_b p) (phase_a p)); simpl; lia.
    + simpl; lia.
Qed.

Lemma four_edges (x : EncoderReader) (p q r t : Z) :
  edges x [p; q; r; t] = edge (edge (edge (edge x p) q) r) t.
Proof. reflexivity. Qed.

Lemma forward_cycle :
  last_phase e = 0 -> count (edges e [1; 3; 2; 0]) = count e + 4.
Proof.
  intros H. apply last_phase_zero in H as [Ha Hb].
  rewrite four_edges, !edge_count, !edge_last_a, !edge_last_b, Ha, Hb.
  simpl. lia.
Qed.

Lemma reverse_cycle :
  last_phase e = 0 -> count (edges e [2; 3; 1; 0]) = count e - 4.
Proof.
  intros H. apply last_phase_zero in H as [Ha Hb].
  rewrite four_edges, !edge_count, !edge_last_a, !edge_last_b, Ha, Hb.
  simpl. lia.
Qed.

(** Where at most one line changes, the handler is the table. *)
Lemma edge_follows_table (p : Z) :
  0 <= p < 4 ->
  both_bits_change (last_phase e) p = false ->
  count (edge e p) = count e + spec_delta (last_phase e) p.
Proof.
  intros Hp. unfold both_bits_change, last_phase, edge, _encoder_irq.
  assert (p = 0 \/ p = 1 \/ p = 2 \/ p = 3) as Hc by lia.
  destruct (_last_a_state e), (_last_b_state e);
    destruct Hc as [-> | [-> | [-> | ->]]]; simpl;
    intros H; try discriminate H; unfold spec_delta; simpl; lia.
Qed.

(** Where both lines change, the handler takes its first branch. *)
Lemma edge_on_jump (p : Z) :
  0 <= p < 4 ->
  both_bits_change (last_phase e) p = true ->
  count (edge e p)
  = count e + (if Bool.eqb (phase_a p) (phase_b p) then -1 else 1).
Proof.
  intros Hp. unfold both_bits_change, last_phase, edge, _encoder_irq.
  assert (p = 0 \/ p = 1 \/ p = 2 \/ p = 3) as Hc by lia.
  destruct (_last_a_state e), (_last_b_state e);
    destruct Hc as [-> | [-> | [-> | ->]]]; simpl;
    intros H; try discriminate H; reflexivity.
Qed.

End DecoderCount.

(** C1 (as amended).  From phase 00 the four edges 01, 11, 10, 00 raise
    [count] by exactly 4 and the four edges 10, 11, 01, 00 lower it by
    exactly 4 (channel A is the low bit of the phase).  On every edge where
    at most one line changed the handler moves [count] as the sixteen-entry
    table does.  On an edge where both lines changed it does not leave
    [count] alone: it lowers it by 1 when the two new levels are equal and
    raises it by 1 when they differ. *)
Theorem decoder_cycles_and_jumps (e : Encoder.EncoderReader) :
  (Encoder.last_phase e = 0 ->
     Encoder.count (Encoder.edges e [1; 3; 2; 0]) = Encoder.count e + 4 /\
     Encoder.count (Encoder.edges e [2; 3; 1; 0]) = Encoder.count e - 4) /\
  (forall p, 0 <= p < 4 ->
     both_bits_change (Encoder.last_phase e) p = false ->
     Encoder.count (Encoder.edge e p)
     = Encoder.count e + spec_delta (Encoder.last_phase e) p) /\
  (forall p, 0 <= p < 4 ->
     both_bits_change (Encoder.last_phase e) p = true ->
     Encoder.count (Encoder.edge e p)
     = Encoder.count e
       + (if Bool.eqb (Encoder.phase_a p) (Encoder.phase_b p) then -1 else 1)).
Proof.
  split; [|split].
  - intros H. split; [now apply forward_cycle | now apply reverse_cycle].
  - apply edge_follows_table.
  - apply edge_on_jump.
Qed.

(** The amended C1 at a freshly built encoder with both lines low: a
    forward cycle, a reverse cycle, one regular edge and one jump. *)
Lemma decoder_cycles_and_jumps_witness :
  let e := Encoder.init false false 0 11 30 in
  Encoder.count (Encoder.edges e [1; 3; 2; 0]) = 4 /\
  Encoder.count (Encoder.edges e [2; 3; 1; 0]) = -4 /\
  Encoder.count (Encoder.edge e 1) = 1 /\
  Encoder.count (Encoder.edge e 3) = -1.
Proof.
  intros e.
  destruct (decoder_cycles_and_jumps e) as [Hc [Ht Hj]].
  destruct (Hc eq_refl) as [Hf Hr].
  split; [exact Hf|]. split; [exact Hr|].
  split.
  - apply (Ht 1); [lia | reflexivity].
  - apply (Hj 3); [lia | reflexivity].
Defined.

(** C1 as stated fails: with the lines at 00, one edge event that finds
    them at 11 (both lines changed) moves [count] from 0 to -1, where the
    claim has a net change of 0. *)
Lemma phase_jump_counterexample :
  let e := Encoder.init false false 0 11 30 in
  Encoder.last_phase e = 0 /\
  both_bits_change (Encoder.last_phase e) 3 = true /\
  Encoder.count (Encoder.edge e 3) - Encoder.count e = -1 /\
  Encoder.count (Encoder.edge e 3) - Encoder.count e <> 0.
Proof.
  simpl. repeat split; try reflexivity. discriminate.
Qed.

(** ** Regulator: the two clamps *)

Section RegulatorLimits.

Import PID.












End RegulatorLimits.





(** ** Regulator: the sampling gate *)

Section SamplingGate.

Import PID.




(** The gate counts whole milliseconds: the window is [sample_time * 1000]
    cut to an integer.  With a sample time of 10.5 ms a call 10 ms after
    the last cycle is a fresh cycle. *)
Lemma gate_counts_whole_milliseconds :
  let s := init 0 2 0 0 90 (-100) 100 0.0105 in
  Py.ticks_diff 10 (last_time s) = 10 /\
  Py.int (sample_time s * 1000) = 10 /\
  too_early s 10 = false /\
  too_early s 9 = true.
Proof. vm_compute. repeat split. Qed.

End SamplingGate.



(** ** Configuration errors *)

Section ZeroDivisors.





End ZeroDivisors.




(** ** Rise time and settling time *)

Section RiseTime.

Lemma rise_scan_keeps_start (ten ninety : Q) (data : list Tuner.DataPoint)
      (t : Q) :
  fst (Tuner.rise_scan ten ninety data (Some t)) = Some t.
Proof.
  induction data as [|d rest IH]; simpl; [reflexivity|].
  destruct (Py.ge (Tuner.actual d) ninety); [reflexivity | exact IH].
Qed.

(** The start the loop of the analyser finds is the time of the first
    point at or above the 10% level, when it finds one. *)
Lemma rise_scan_start (ten ninety : Q) (data : list Tuner.DataPoint) :
  match fst (Tuner.rise_scan ten ninety data None) with
  | None => True
  | Some t =>
      exists p, first_point_reaching ten data = Some p /\ t = Tuner.time p
  end.
Proof.
  unfold first_point_reaching.
  induction data as [|d rest IH]; simpl; [exact I|].
  destruct (Py.ge (Tuner.actual d) ten) eqn:E10.
  - destruct (Py.ge (Tuner.actual d) ninety); simpl.
    + now exists d.
    + rewrite rise_scan_keeps_start. now exists d.
  - destruct (Py.ge (Tuner.actual d) ninety); simpl; [exact I | exact IH].
Qed.

(** The analyser returns figures for every non-empty run of points. *)
Lemma slice_last_tenth_nonempty {A} (d : A) (rest : list A) :
  Py.slice_from (- (Py.len (d :: rest) / 10)) (d :: rest) <> [].
Proof.
  unfold Py.slice_from, Py.len.
  remember (d :: rest) as l eqn:El.
  remember (Z.of_nat (length l)) as n eqn:En.
  assert (1 <= n) as Hn by (subst n l; simpl length; lia).
  assert (0 <= n / 10 < n) as Hq
      by (split; [apply Z.div_pos; lia | apply Z.div_lt; lia]).
  intros H. apply (f_equal (@length A)) in H.
  rewrite length_skipn in H. simpl in H.
  destruct (- (n / 10) <? 0) eqn:E.
  - apply Z.ltb_lt in E. lia.
  - apply Z.ltb_ge in E. lia.
Qed.

Lemma steady_state_returns (d : Tuner.DataPoint)
      (rest : list Tuner.DataPoint) :
  exists v, Tuner.steady_state (d :: rest) = Py.Return v.
Proof.
  unfold Tuner.steady_state.
  rewrite div_nonzero; [now eexists|].
  pose proof (slice_last_tenth_nonempty d rest) as H.
  unfold Py.len at 1. rewrite length_map.
  destruct (Py.slice_from _ _); [contradiction|].
  unfold Qeq; simpl. lia.
Qed.

Lemma overshoot_percent_returns (m target : Q) :
  exists v, Tuner.overshoot_percent m target = Py.Return v.
Proof.
  unfold Tuner.overshoot_percent.
  destruct (Qeq_bool target 0) eqn:E; simpl; [now eexists|].
  rewrite div_nonzero; [now eexists|].
  intros H. apply Qeq_bool_iff in H. congruence.
Qed.

Lemma analyze_returns (d : Tuner.DataPoint) (rest : list Tuner.DataPoint) :
  exists a,
    Tuner._analyze_step_response (d :: rest) = Py.Return (Some a) /\
    Tuner.steady_state (d :: rest) = Py.Return (Tuner.steady_state_value a) /\
    Tuner.overshoot_percent (max_actual d rest) (Tuner.setpoint d)
    = Py.Return (Tuner.overshoot a) /\
    Tuner.rise_time a
    = (let scan := Tuner.rise_scan (Tuner.setpoint d * 0.1)
                                   (Tuner.setpoint d * 0.9) (d :: rest) None in
       Tuner.rise_time_between (fst scan) (snd scan)).
Proof.
  unfold Tuner._analyze_step_response, max_actual.
  destruct (steady_state_returns d rest) as [v Hv]. rewrite Hv.
  destruct (overshoot_percent_returns
              (Py.max_list (Tuner.actual d) (map Tuner.actual rest))
              (Tuner.setpoint d)) as [o Ho].
  unfold Py.bind at 1. rewrite Ho. unfold Py.bind at 1.
  eexists. split; [reflexivity|]. now repeat split.
Qed.

End RiseTime.

(** C10.  When the first sample at or above 10% of the target carries the
    timestamp 0, the rise time is reported as unavailable: by
    [_calculate_rise_time] of the wizard and by the analyser alike, whether
    or not a later sample reaches 90% of the target.  (Both test the
    recorded start time for truth, and 0.0 is false.) *)
Theorem rise_time_lost_at_time_zero :
  (forall (data : list Wizard.Sample) (target : Q) (p : Wizard.Sample),
     Wizard.first_reaching (target * 0.1) data = Some p ->
     (Wizard.time p == 0)%Q ->
     Wizard._calculate_rise_time data target = None) /\
  (forall (d : Tuner.DataPoint) (rest : list Tuner.DataPoint)
          (a : Tuner.Analysis) (p : Tuner.DataPoint),
     Tuner._analyze_step_response (d :: rest) = Py.Return (Some a) ->
     first_point_reaching (Tuner.setpoint d * 0.1) (d :: rest) = Some p ->
     (Tuner.time p == 0)%Q ->
     Tuner.rise_time a = None).
Proof.
  split.
  - intros data target p Hp Hz. unfold Wizard._calculate_rise_time.
    destruct data as [|d rest]; [reflexivity|].
    rewrite Hp.
    destruct (Wizard.first_reaching (target * 0.9) (d :: rest));
      [|reflexivity].
    now rewrite (truthy_zero _ Hz).
  - intros d rest a p Ha Hp Hz.
    destruct (analyze_returns d rest) as (a' & Ha' & _ & _ & Hr).
    rewrite Ha in Ha'. injection Ha' as <-.
    rewrite Hr. cbv zeta.
    pose proof (rise_scan_start (Tuner.setpoint d * 0.1)
                  (Tuner.setpoint d * 0.9) (d :: rest)) as Hs.
    destruct (fst (Tuner.rise_scan _ _ _ _)) as [t|]; [|reflexivity].
    destruct Hs as (p' & Hp' & ->).
    rewrite Hp in Hp'. injection Hp' as <-.
    unfold Tuner.rise_time_between.
    destruct (snd (Tuner.rise_scan _ _ _ _)); [|reflexivity].
    unfold Py.truthy_opt at 1. now rewrite (truthy_zero _ Hz).
Qed.

(** C10 on a run for target 90 that is at 10 degrees at time 0 and at 85
    degrees half a second later: both levels are crossed, the second at
    time 0.5, and no rise time is reported. *)
Lemma rise_time_lost_at_time_zero_witness :
  let data := [sample 90 0 10; sample 90 0.5 85] in
  let points := [point 90 0 10; point 90 0.5 85] in
  Wizard.first_reaching (90 * 0.9) data = Some (sample 90 0.5 85) /\
  Wizard._calculate_rise_time data 90 = None /\
  exists a, Tuner._analyze_step_response points = Py.Return (Some a) /\
            Tuner.rise_time a = None.
Proof.
  intros data points.
  destruct rise_time_lost_at_time_zero as [Hw Ht].
  split; [reflexivity|]. split.
  - apply (Hw data 90%Q (sample 90 0 10)); reflexivity.
  - destruct (analyze_returns (point 90 0 10) [point 90 0.5 85])
      as (a & Ha & _).
    exists a. split; [exact Ha|].
    apply (Ht (point 90 0 10) [point 90 0.5 85] a (point 90 0 10));
      [exact Ha | reflexivity | reflexivity].
Defined.

(** ** Steady-state value of a short run *)

(** C9.  For a run of one to nine points the analyser returns figures, and
    its steady-state value is the mean of all the measured values: the
    window size [len(data) // 10] is 0 and the slice [data[-0:]] is the whole
    list. *)
Theorem steady_state_of_short_run (data : list Tuner.DataPoint) :
  (0 < length data < 10)%nat ->
  Py.len data / 10 = 0 /\
  Py.slice_from (- (Py.len data / 10)) data = data /\
  exists a,
    Tuner._analyze_step_response data = Py.Return (Some a) /\
    mean (map Tuner.actual data) = Py.Return (Tuner.steady_state_value a).
Proof.
  intros H.
  assert (Py.len data / 10 = 0) as Hs
      by (unfold Py.len; apply Z.div_small; lia).
  assert (Py.slice_from (- (Py.len data / 10)) data = data) as Hd.
  { rewrite Hs. unfold Py.slice_from. simpl.
    replace (Z.min 0 (Py.len data)) with 0 by (unfold Py.len; lia).
    reflexivity. }
  split; [exact Hs|]. split; [exact Hd|].
  destruct data as [|d rest]; [simpl in H; lia|].
  destruct (analyze_returns d rest) as (a & Ha & Hv & _).
  exists a. split; [exact Ha|].
  unfold Tuner.steady_state in Hv. rewrite Hd in Hv. exact Hv.
Qed.

(** C9 on three points with measured values 0, 45 and 90: the
    steady-state value is their mean, 45. *)
Lemma steady_state_of_short_run_witness :
  let data := [point 90 0 0; point 90 0.01 45; point 90 0.02 90] in
  (0 < length data < 10)%nat /\
  exists a,
    Tuner._analyze_step_response data = Py.Return (Some a) /\
    mean (map Tuner.actual data) = Py.Return (Tuner.steady_state_value a) /\
    (Tuner.steady_state_value a == 45)%Q.
Proof.
  intros data.
  assert ((0 < length data < 10)%nat) as H by (simpl; lia).
  split; [exact H|].
  destruct (steady_state_of_short_run data H) as (_ & _ & a & Ha & Hm).
  exists a. split; [exact Ha|]. split; [exact Hm|].
  remember (Tuner.steady_state_value a) as v eqn:Ev.
  vm_compute in Hm. injection Hm as <-. reflexivity.
Defined.

(** ** Settling time: the backward scan *)

Section SettlingScan.

Import Wizard.

Variable data : list Sample.
Variables target band : Q.
Variable d : Sample.

Let hit (j : nat) : bool :=
  Py.gt (Py.abs (angle (nth j data d) - target)) band.

Lemma settling_scan_step (i : nat) :
  settling_scan data target band d (S i)
  = if hit (S i)
    then if (Z.of_nat (S i) + 1 <? Py.len data)
         then time (nth (S i + 1) data d)
         else time (Py.last_item data d)
    else settling_scan data target band d i.
Proof. reflexivity. Qed.

(** No sample from index 1 to [i] is outside the band: the scan runs to
    its end and reports the last timestamp. *)
Lemma settling_scan_clean (i : nat) :
  (forall j, (1 <= j <= i)%nat -> hit j = false) ->
  settling_scan data target band d i = time (Py.last_item data d).
Proof.
  induction i as [|i IH]; intros H; [reflexivity|].
  rewrite settling_scan_step, (H (S i)) by lia.
  apply IH. intros j Hj. apply H. lia.
Qed.

(** Index [k] is the last one outside the band: the scan stops there. *)
Lemma settling_scan_hit (i k : nat) :
  (1 <= k <= i)%nat ->
  hit k = true ->
  (forall j, (k < j <= i)%nat -> hit j = false) ->
  settling_scan data target band d i
  = if (Z.of_nat k + 1 <? Py.len data)
    then time (nth (k + 1) data d)
    else time (Py.last_item data d).
Proof.
  induction i as [|i IH]; intros Hk Hh Hc; [lia|].
  rewrite settling_scan_step.
  destruct (Nat.eq_dec k (S i)) as [->|Hne].
  - now rewrite Hh.
  - rewrite (Hc (S i)) by lia.
    apply IH; [lia | exact Hh |].
    intros j Hj. apply Hc. lia.
Qed.

End SettlingScan.

Section Availability.

Import Wizard.

Lemma nth_length_last {A} (x d : A) (l : list A) :
  nth (length l) (x :: l) d = last (x :: l) d.
Proof.
  revert x. induction l as [|y l IH]; intros x; [reflexivity|].
  change (nth (length l) (y :: l) d = last (y :: l) d). apply IH.
Qed.

Lemma settling_time_unfold (d0 : Sample) (rest : list Sample) (target : Q) :
  _calculate_settling_time (d0 :: rest) target
  = Some (settling_scan (d0 :: rest) target (target * 0.02) d0 (length rest)).
Proof.
  unfold _calculate_settling_time. do 2 f_equal.
  unfold Py.len. simpl length. lia.
Qed.

Lemma rise_time_some (data : list Sample) (target r : Q) :
  _calculate_rise_time data target = Some r ->
  exists p10 p90,
    first_reaching (target * 0.1) data = Some p10 /\
    first_reaching (target * 0.9) data = Some p90 /\
    r = (time p90 - time p10)%Q.
Proof.
  unfold _calculate_rise_time.
  destruct data as [|d0 rest]; [discriminate|].
  destruct (first_reaching (target * 0.9) (d0 :: rest)) as [p90|];
    [|discriminate].
  destruct (first_reaching (target * 0.1) (d0 :: rest)) as [p10|];
    [|discriminate].
  destruct (Py.truthy (time p10)); [|discriminate].
  intros [= <-]. now exists p10, p90.
Qed.

Lemma rise_time_none (data : list Sample) (target : Q) :
  first_reaching (target * 0.1) data = None \/
  first_reaching (target * 0.9) data = None ->
  _calculate_rise_time data target = None.
Proof.
  unfold _calculate_rise_time.
  destruct data as [|d0 rest]; [reflexivity|].
  intros [H | H]; rewrite H; [|reflexivity].
  now destruct (first_reaching (target * 0.9) (d0 :: rest)).
Qed.

End Availability.

(** C4 (as amended).  For a non-empty run of samples: a rise time, when
    one is reported, is the time between the first sample at or above 10% of
    the target and the first at or above 90%, and none is reported when
    either level is never reached.  A settling time is always reported: the
    scan goes backward from the last sample down to index 1; at the first
    sample it finds outside the band of 2% of the target it reports the
    timestamp of the following sample; when the sample outside the band is
    the last one, and also when no sample from index 1 on is outside the
    band, it reports the timestamp of the last sample. *)
Theorem rise_and_settling_reports
  (d0 : Wizard.Sample) (rest : list Wizard.Sample) (target : Q) :
  let data := d0 :: rest in
  (forall r, Wizard._calculate_rise_time data target = Some r ->
     exists p10 p90,
       Wizard.first_reaching (target * 0.1) data = Some p10 /\
       Wizard.first_reaching (target * 0.9) data = Some p90 /\
       r = (Wizard.time p90 - Wizard.time p10)%Q) /\
  (Wizard.first_reaching (target * 0.1) data = None \/
   Wizard.first_reaching (target * 0.9) data = None ->
   Wizard._calculate_rise_time data target = None) /\
  (exists t, Wizard._calculate_settling_time data target = Some t) /\
  (forall k, (1 <= k)%nat -> (k + 1 < length data)%nat ->
     outside_band target (nth k data d0) = true ->
     (forall j, (k < j < length data)%nat ->
        outside_band target (nth j data d0) = false) ->
     Wizard._calculate_settling_time data target
     = Some (Wizard.time (nth (k + 1) data d0))) /\
  (outside_band target (last data d0) = true ->
   Wizard._calculate_settling_time data target
   = Some (Wizard.time (last data d0))) /\
  ((forall j, (1 <= j < length data)%nat ->
      outside_band target (nth j data d0) = false) ->
   Wizard._calculate_settling_time data target
   = Some (Wizard.time (last data d0))).
Proof.
  intros data. subst data.
  split; [apply rise_time_some|].
  split; [apply rise_time_none|].
  split; [rewrite settling_time_unfold; now eexists|].
  split; [|split].
  - intros k Hk Hlen Hout Hin. rewrite settling_time_unfold. f_equal.
    rewrite (settling_scan_hit _ _ _ _ (length rest) k).
    + replace (Z.of_nat k + 1 <? Py.len (d0 :: rest)) with true; [reflexivity|].
      symmetry. apply Z.ltb_lt. unfold Py.len. lia.
    + simpl in Hlen. lia.
    + exact Hout.
    + intros j Hj. apply Hin. simpl. lia.
  - intros Hout. rewrite settling_time_unfold. f_equal.
    destruct rest as [|d1 rest']; [reflexivity|].
    rewrite (settling_scan_hit _ _ _ _ _ (length (d1 :: rest'))).
    + replace (_ <? _) with false; [reflexivity|].
      symmetry. apply Z.ltb_ge. unfold Py.len. simpl length. lia.
    + simpl. lia.
    + rewrite nth_length_last. exact Hout.
    + intros j Hj. lia.
  - intros Hin. rewrite settling_time_unfold. f_equal.
    apply settling_scan_clean. intros j Hj. apply Hin. simpl. lia.
Qed.

(** The amended C4 on a run for target 90 that leaves the band once, at
    index 1, and on a run that is still outside the band at its end. *)
Lemma rise_and_settling_reports_witness :
  let settled := [sample 90 0 0; sample 90 0.5 80; sample 90 1 90;
                  sample 90 1.5 90] in
  let unsettled := [sample 90 0 0; sample 90 0.5 45] in
  Wizard._calculate_settling_time settled 90 = Some 1%Q /\
  Wizard._calculate_settling_time unsettled 90 = Some 0.5%Q /\
  Wizard._calculate_rise_time unsettled 90 = None.
Proof.
  intros settled unsettled.
  destruct (rise_and_settling_reports
              (sample 90 0 0)
              [sample 90 0.5 80; sample 90 1 90; sample 90 1.5 90] 90)
    as (_ & _ & _ & Hk & _).
  destruct (rise_and_settling_reports (sample 90 0 0) [sample 90 0.5 45] 90)
    as (_ & Hn & _ & _ & Hl & _).
  split; [|split].
  - apply (Hk 1%nat); simpl; try lia; try reflexivity.
    intros j Hj.
    assert (j = 2 \/ j = 3)%nat as [-> | ->] by lia; reflexivity.
  - apply Hl. reflexivity.
  - apply Hn. right. reflexivity.
Defined.

(** C4 as stated fails: in a run for target 90 whose last sample, at 45
    degrees, is outside the band, the settling time is not reported as
    unavailable; it is the timestamp of that last sample. *)
Lemma settling_time_counterexample :
  let data := [sample 90 0 0; sample 90 0.5 45] in
  outside_band 90 (last data (sample 90 0 0)) = true /\
  Wizard._calculate_settling_time data 90 = Some 0.5%Q /\
  Wizard._calculate_settling_time data 90 <> None.
Proof.
  simpl. repeat split. discriminate.
Qed.

(** ** The test loop of the wizard *)

Section MaxOfSamples.

Lemma max_le_iff (a b t : Q) :
  (Py.max a b <= t)%Q <-> (a <= t)%Q /\ (b <= t)%Q.
Proof.
  unfold Py.max. destruct (Py.gt b a) eqn:E.
  - apply gt_spec in E. split; [intros H | intros [_ H]]; [split|]; lra.
  - apply gt_false in E. split; [intros H | intros [H _]]; [split|]; lra.
Qed.

Lemma max_list_le (l : list Q) (x t : Q) :
  (Py.max_list x l <= t)%Q <-> (x <= t)%Q /\ Forall (fun b => (b <= t)%Q) l.
Proof.
  revert x. induction l as [|b l IH]; intros x.
  - simpl. split; [intros H; now split | now intros [H _]].
  - change (Py.max_list x (b :: l)) with (Py.max_list (Py.max x b) l).
    rewrite IH, max_le_iff. split.
    + intros [[Hx Hb] Hl]. split; [exact Hx | now constructor].
    + intros [Hx Hl]. inversion Hl; subst. now repeat split.
Qed.

Lemma max_list_ge_seed (l : list Q) (x : Q) : (x <= Py.max_list x l)%Q.
Proof.
  apply (proj1 (max_list_le l x (Py.max_list x l))). apply Qle_refl.
Qed.


Lemma max_list_snoc (l : list Q) (x b : Q) :
  Py.max_list x (l ++ [b]) = Py.max (Py.max_list x l) b.
Proof. unfold Py.max_list. now rewrite fold_left_app. Qed.



End MaxOfSamples.

Section TestLoop.

Import Wizard.

Variable test_time : Q.
Variable start_time : Z.

Lemma safety_band_bounds (x : Q) : (-80 <= safety_band x <= 80)%Q.
Proof.
  unfold safety_band. split.
  - apply max_ge_first.
  - apply max_le; [lra | apply min_le_first].
Qed.

(** What one pass does to the calls on the motor, to the samples and to
    the running maximum. *)
Lemma cycle_returns (c : Cycle) (l l' : Locals) :
  cycle test_time start_time c l = (l', Py.Return tt) ->
  exists current_angle control_output,
    Encoder.get_angle (Encoder.edges (encoder l) (hall_edges c))
    = Py.Return current_angle /\
    PID.update (pid l) (update_clock c) current_angle
    = (pid l', Py.Return control_output) /\
    motor_calls l'
    = motor_calls l ++ [SetSpeed (safety_band control_output)] /\
    map angle (data l') = map angle (data l) ++ [current_angle] /\
    max_angle l' = Py.max (max_angle l) current_angle.
Proof.
  unfold cycle.
  destruct (Encoder.get_angle _) as [current_angle|] eqn:Ea; [|discriminate].
  destruct (PID.update _ _ _) as [pid' [control_output|]] eqn:Eu;
    [|discriminate].
  intros [= <-]. exists current_angle, control_output. simpl.
  rewrite map_app. repeat split; try reflexivity. exact Eu.
Qed.

Lemma cycle_raises (c : Cycle) (l l' : Locals) (e : Py.exn) :
  cycle test_time start_time c l = (l', Py.Raise e) ->
  motor_calls l' = motor_calls l /\ data l' = data l /\
  max_angle l' = max_angle l.
Proof.
  unfold cycle.
  destruct (Encoder.get_angle _) as [current_angle|].
  - destruct (PID.update _ _ _) as [pid' [control_output|]];
      [discriminate|].
    intros [= <- _]. now simpl.
  - intros [= <- _]. now simpl.
Qed.

Lemma cycle_keeps_invariant (c : Cycle) (l : Locals) :
  loop_invariant l ->
  loop_invariant (fst (cycle test_time start_time c l)).
Proof.
  intros [Hb Hm].
  destruct (cycle test_time start_time c l) as [l' [[]|e]] eqn:E; simpl.
  - destruct (cycle_returns c l l' E) as (a & o & _ & _ & Hc & Hd & Hx).
    split.
    + rewrite Hc. apply Forall_app. split; [exact Hb|].
      constructor; [apply safety_band_bounds | constructor].
    + rewrite Hx, Hd, max_list_snoc. now rewrite Hm.
  - destruct (cycle_raises c l l' e E) as (Hc & Hd & Hx).
    split; [now rewrite Hc | now rewrite Hx, Hd].
Qed.

Lemma loop_keeps_invariant (env : nat -> Cycle) (n i : nat) (l : Locals) :
  loop_invariant l ->
  loop_invariant (fst (loop test_time start_time env n i l)).
Proof.
  revert i l. induction n as [|n IH]; intros i l H; [exact H|].
  simpl loop.
  pose proof (cycle_keeps_invariant (env i) l H) as Hc.
  destruct (cycle test_time start_time (env i) l) as [l' [[]|e]].
  - apply IH. exact Hc.
  - exact Hc.
Qed.

End TestLoop.

Section TestRun.

Import Wizard.

Lemma entry_invariant (enc : Encoder.EncoderReader) (kp ki kd step_angle : Q)
      (clk : Clocks) :
  loop_invariant (entry enc kp ki kd step_angle clk).
Proof. split; [constructor | reflexivity]. Qed.

(** [step_test] in terms of the loop it runs. *)
Lemma step_test_unfold (enc : Encoder.EncoderReader)
      (kp ki kd step_angle test_time : Q) (clk : Clocks)
      (env : nat -> Cycle) :
  let r := loop test_time (start_clock clk) env
                (Z.to_nat (Py.int (test_time * 100))) 0%nat
                (entry enc kp ki kd step_angle clk) in
  match snd r with
  | Py.Raise e =>
      step_test enc kp ki kd step_angle test_time clk env
      = (motor_calls (fst r), Py.Raise e)
  | Py.Return _ =>
      exists l',
        step_test enc kp ki kd step_angle test_time clk env
        = (motor_calls (fst r) ++ [Stop], results kp ki kd step_angle l') /\
        data l' = data (fst r) /\ max_angle l' = max_angle (fst r)
  end.
Proof.
  intros r. unfold step_test. fold r.
  destruct r as [l [[]|e]]; simpl; [|reflexivity].
  eexists. split; [reflexivity|]. now split.
Qed.



End TestRun.

(** ** The test run comes to its end *)

Section TestRunReturns.

Import Wizard.







End TestRunReturns.

(** C8.  Every call that [step_test] makes on the motor driver is a stop
    or a speed within [[-80, 80]], whatever the encoder, the gains, the
    target, the duration, the clocks and the hall edges; and in every pass
    of its loop that reaches the motor the speed sent is what [pid.update]
    returned in that pass, cut to that band. *)
Theorem step_test_speed_within_band
  (enc : Encoder.EncoderReader) (kp ki kd step_angle test_time : Q)
  (clk : Wizard.Clocks) (env : nat -> Wizard.Cycle) :
  Forall within_band
         (fst (Wizard.step_test enc kp ki kd step_angle test_time clk env)) /\
  forall (c : Wizard.Cycle) (l l' : Wizard.Locals),
    Wizard.cycle test_time (Wizard.start_clock clk) c l = (l', Py.Return tt) ->
    exists current_angle control_output,
      Encoder.get_angle
        (Encoder.edges (Wizard.encoder l) (Wizard.hall_edges c))
      = Py.Return current_angle /\
      PID.update (Wizard.pid l) (Wizard.update_clock c) current_angle
      = (Wizard.pid l', Py.Return control_output) /\
      Wizard.motor_calls l'
      = Wizard.motor_calls l
        ++ [Wizard.SetSpeed (Wizard.safety_band control_output)] /\
      (-80 <= Wizard.safety_band control_output <= 80)%Q.
Proof.
  split.
  - pose proof (step_test_unfold enc kp ki kd step_angle test_time clk env)
      as U.
    cbv zeta in U.
    pose proof (loop_keeps_invariant test_time (Wizard.start_clock clk) env
                  (Z.to_nat (Py.int (test_time * 100))) 0%nat _
                  (entry_invariant enc kp ki kd step_angle clk)) as [Hb _].
    destruct (snd (Wizard.loop _ _ _ _ _ _)) as [[]|e].
    + destruct U as (l' & -> & _). simpl.
      apply Forall_app. split; [exact Hb|].
      constructor; [exact I | constructor].
    + rewrite U. exact Hb.
  - intros c l l' H.
    destruct (cycle_returns _ _ c l l' H)
      as (a & o & Ha & Hu & Hc & _ & _).
    exists a, o. repeat split; try assumption;
      apply safety_band_bounds.
Qed.

(** C8 on the short test run with gains 2, 0, 0 and target 90: the
    regulator asks for its limits 100 and -100, the motor is sent 80, then
    0 at the target, then -80, and is stopped. *)
Lemma step_test_speed_within_band_witness :
  let sent :=
    fst (Wizard.step_test quarter_turn_encoder 2 0 0 90 0.03 clocks_at_zero
                          quarter_turn_run) in
  Forall within_band sent /\
  length sent = 4%nat /\
  nth 0 sent Wizard.Stop = Wizard.SetSpeed 80 /\
  nth 2 sent Wizard.Stop = Wizard.SetSpeed (-80) /\
  nth 3 sent Wizard.Stop = Wizard.Stop.
Proof.
  intros sent. split.
  - exact (proj1 (step_test_speed_within_band quarter_turn_encoder 2 0 0 90
                    0.03 clocks_at_zero quarter_turn_run)).
  - vm_compute. repeat split.
Defined.

(** ** Overshoot *)

Section Overshoot.



End Overshoot.



